(** * Kerr Lab: the physical-state update model of [kerr_lab.py]

    A shallow embedding of class [KerrLabFinal]: the simulation state, the
    per-frame [update], the horizon recomputation [update_geometry], the HUD
    refresh [update_hud] and the key handler [on_key].

    Numbers are IEEE 754 binary64 values, as in Python and numpy: Rocq's
    primitive [float] with its correctly rounded [+], [-], [*], [/] and
    [sqrt].  The transcendental library functions the source calls
    ([**], [np.cos], [np.sin]) and the string formatting of floats are not
    part of the repository; the model takes them as the fields of a
    [Library]. *)

From Stdlib Require Import Reals Qreals Lra.
From Stdlib Require Import ZArith List Floats Bool String Ascii Lia QArith.
Import ListNotations.

Set Warnings "-inexact-float".

Open Scope float_scope.

(** ** Arrays *)

(** A one-dimensional numpy array and a two-dimensional one (a list of rows). *)
Definition vec := list float.
Definition mesh := list (list float).

(** Elementwise binary operation on two arrays of the same shape.  Every pair
    of arrays the source combines has the same shape by construction
    ([p_r]/[p_phi]/[p_z] have [n_particles] entries, [R]/[P] come from one
    [np.meshgrid]); on a shorter operand the model stops, where numpy would
    refuse to broadcast. *)
Fixpoint zip_with {A B C : Type} (f : A -> B -> C) (l1 : list A) (l2 : list B)
  : list C :=
  match l1, l2 with
  | x :: l1', y :: l2' => f x y :: zip_with f l1' l2'
  | _, _ => []
  end.

Definition mesh_map (f : float -> float) (m : mesh) : mesh :=
  map (map f) m.

Definition mesh_zip_with (f : float -> float -> float) (m1 m2 : mesh) : mesh :=
  zip_with (zip_with f) m1 m2.

(** ** Library behaviour used by the source *)

(** The only exception class the source handles. *)
Inductive exn : Set := ValueError.

(** [np.sqrt] on a float64: the IEEE square root.  On a negative argument
    numpy returns [nan] (and emits a [RuntimeWarning]); it does not raise
    [ValueError], so the result is always a value. *)
Definition np_sqrt (x : float) : exn + float := inr (sqrt x).

(** ** Simulation state *)

(** A HUD text object: axes position, content and colour. *)
Record text2D : Set := mkText {
  text_x : float;
  text_y : float;
  text_s : string;
  text_color : string
}.

(** The wireframe drawn by [plot_wireframe]. *)
Record wireframe : Set := mkWireframe {
  wf_X : mesh;
  wf_Y : mesh;
  wf_Z : mesh;
  wf_color : string
}.

(** The horizon sphere drawn by [plot_surface]. *)
Record surface : Set := mkSurface {
  surf_X : mesh;
  surf_Y : mesh;
  surf_Z : mesh;
  surf_color : string;
  surf_alpha : float
}.

(** The attributes of a [KerrLabFinal] instance that the simulation reads or
    writes.  [scat_offsets3d] is [self.scat._offsets3d]. *)
Record KerrLabFinal : Set := mkKerrLab {
  paused : bool;
  newtonian_mode : bool;
  info_mode : Z;
  M : float;
  a : float;
  p_r : vec;
  p_phi : vec;
  p_z : vec;
  scat_offsets3d : vec * vec * vec;
  R : mesh;
  P : mesh;
  wframe : option wireframe;
  horizon_surf : option surface;
  text_objects : list text2D
}.

(** Tuning constants: assigned once in [__init__] and never reassigned. *)
Definition speed_mult : float := 0.15.
Definition drag_strength : float := 0.5.
Definition drag_power : float := 2.0.

(** Attribute assignments. *)
Definition set_paused (b : bool) (s : KerrLabFinal) : KerrLabFinal :=
  mkKerrLab b (newtonian_mode s) (info_mode s) (M s) (a s) (p_r s) (p_phi s)
    (p_z s) (scat_offsets3d s) (R s) (P s) (wframe s) (horizon_surf s)
    (text_objects s).

Definition set_newtonian_mode (b : bool) (s : KerrLabFinal) : KerrLabFinal :=
  mkKerrLab (paused s) b (info_mode s) (M s) (a s) (p_r s) (p_phi s)
    (p_z s) (scat_offsets3d s) (R s) (P s) (wframe s) (horizon_surf s)
    (text_objects s).

Definition set_info_mode (i : Z) (s : KerrLabFinal) : KerrLabFinal :=
  mkKerrLab (paused s) (newtonian_mode s) i (M s) (a s) (p_r s) (p_phi s)
    (p_z s) (scat_offsets3d s) (R s) (P s) (wframe s) (horizon_surf s)
    (text_objects s).

Definition set_M (x : float) (s : KerrLabFinal) : KerrLabFinal :=
  mkKerrLab (paused s) (newtonian_mode s) (info_mode s) x (a s) (p_r s)
    (p_phi s) (p_z s) (scat_offsets3d s) (R s) (P s) (wframe s)
    (horizon_surf s) (text_objects s).

Definition set_a (x : float) (s : KerrLabFinal) : KerrLabFinal :=
  mkKerrLab (paused s) (newtonian_mode s) (info_mode s) (M s) x (p_r s)
    (p_phi s) (p_z s) (scat_offsets3d s) (R s) (P s) (wframe s)
    (horizon_surf s) (text_objects s).

Definition set_p_phi (v : vec) (s : KerrLabFinal) : KerrLabFinal :=
  mkKerrLab (paused s) (newtonian_mode s) (info_mode s) (M s) (a s) (p_r s)
    v (p_z s) (scat_offsets3d s) (R s) (P s) (wframe s) (horizon_surf s)
    (text_objects s).

Definition set_scat_offsets3d (o : vec * vec * vec) (s : KerrLabFinal)
  : KerrLabFinal :=
  mkKerrLab (paused s) (newtonian_mode s) (info_mode s) (M s) (a s) (p_r s)
    (p_phi s) (p_z s) o (R s) (P s) (wframe s) (horizon_surf s)
    (text_objects s).

Definition set_P (m : mesh) (s : KerrLabFinal) : KerrLabFinal :=
  mkKerrLab (paused s) (newtonian_mode s) (info_mode s) (M s) (a s) (p_r s)
    (p_phi s) (p_z s) (scat_offsets3d s) (R s) m (wframe s) (horizon_surf s)
    (text_objects s).

Definition set_wframe (w : option wireframe) (s : KerrLabFinal)
  : KerrLabFinal :=
  mkKerrLab (paused s) (newtonian_mode s) (info_mode s) (M s) (a s) (p_r s)
    (p_phi s) (p_z s) (scat_offsets3d s) (R s) (P s) w (horizon_surf s)
    (text_objects s).

Definition set_horizon_surf (h : option surface) (s : KerrLabFinal)
  : KerrLabFinal :=
  mkKerrLab (paused s) (newtonian_mode s) (info_mode s) (M s) (a s) (p_r s)
    (p_phi s) (p_z s) (scat_offsets3d s) (R s) (P s) (wframe s) h
    (text_objects s).

Definition set_text_objects (t : list text2D) (s : KerrLabFinal)
  : KerrLabFinal :=
  mkKerrLab (paused s) (newtonian_mode s) (info_mode s) (M s) (a s) (p_r s)
    (p_phi s) (p_z s) (scat_offsets3d s) (R s) (P s) (wframe s)
    (horizon_surf s) t.

(** The line break of a Python ["\n"]. *)
Definition nl : string := String (ascii_of_nat 10) EmptyString.

(** The library functions the source calls and the repository does not
    define. *)
Class Library : Type := mkLibrary {
  (** Python's scalar [x ** y] on floats (the C library's [pow]). *)
  py_pow : float -> float -> float;
  (** numpy's elementwise [array ** scalar]. *)
  np_power : float -> float -> float;
  (** [np.cos] and [np.sin], elementwise. *)
  np_cos : float -> float;
  np_sin : float -> float;
  (** [f"{x:.nf}"]: fixed-point formatting with [n] decimals. *)
  format_fixed : nat -> float -> string;
  (** The latitude and longitude meshes of the horizon sphere:
      [np.meshgrid(np.linspace(0, np.pi, 25), np.linspace(0, 2*np.pi, 25))]. *)
  THETA : mesh;
  PHI : mesh
}.

Section KerrLab.

Context {L : Library}.

(** *** [update_geometry] *)

(** The horizon radius computed by the [try]/[except] block of
    [update_geometry]. *)
Definition r_plus (mass spin : float) : float :=
  match np_sqrt (py_pow mass 2 - py_pow spin 2) with
  | inr root => mass + root
  | inl ValueError => mass
  end.

Definition update_geometry (s : KerrLabFinal) : KerrLabFinal :=
  let rp := r_plus (M s) (a s) in
  let X := mesh_zip_with (fun t p => rp * np_sin t * np_cos p) THETA PHI in
  let Y := mesh_zip_with (fun t p => rp * np_sin t * np_sin p) THETA PHI in
  let Z := mesh_map (fun t => rp * np_cos t) THETA in
  let color := if newtonian_mode s then "gray"%string else "black"%string in
  let alpha := if newtonian_mode s then 0.5 else 0.95 in
  set_horizon_surf (Some (mkSurface X Y Z color alpha)) s.

(** *** [update_hud] *)

Definition update_hud (s : KerrLabFinal) : KerrLabFinal :=
  let mode_str :=
    if newtonian_mode s then "NEWTONIAN (CLASSIC)"%string
    else "RELATIVISTIC (KERR)"%string in
  let color_str := if newtonian_mode s then "red"%string else "cyan"%string in
  let t_dash :=
    mkText 0.02 0.92
      ("MODE: " ++ mode_str ++ nl ++ "Spin a=" ++ format_fixed 2 (a s)
       ++ " | Mass M=" ++ format_fixed 1 (M s))%string
      color_str in
  let panel :=
    if (info_mode s =? 1)%Z then
      [ mkText 0.05 0.85 "1. EVENT HORIZON GEOMETRY" "cyan";
        mkText 0.05 0.78 "Kerr: $r_+ = M + \sqrt{M^2 - a^2}$" "white";
        mkText 0.05 0.73 "(Non-rotating $a=0 \rightarrow R_s = 2M$)" "gray" ]
    else if (info_mode s =? 2)%Z then
      [ mkText 0.05 0.85 "2. TIME DILATION" "orange";
        mkText 0.05 0.78
          "To a distant observer, time stops at the horizon." "white";
        mkText 0.05 0.73
          "As $r \rightarrow r_+$, redshift $\rightarrow \infty$. You fade out, frozen forever."
          "yellow" ]
    else if (info_mode s =? 3)%Z then
      if newtonian_mode s then
        [ mkText 0.05 0.85 "3. FRAME DRAGGING (Lense-Thirring)" "#9900ff";
          mkText 0.05 0.78 "[DISABLED IN NEWTONIAN MODE]" "red" ]
      else
        [ mkText 0.05 0.85 "3. FRAME DRAGGING (Lense-Thirring)" "#9900ff";
          mkText 0.05 0.78 "$d\phi \rightarrow d\phi - \omega(r) dt$" "white";
          mkText 0.05 0.73
            ("Spacetime twists with the spin." ++ nl
             ++ "Orbits are forced to corotate.")%string
            "cyan" ]
    else [] in
  set_text_objects (t_dash :: panel) s.

(** *** [update_params] *)

(** The slider callback; [spin_val] and [mass_val] are the current values of
    the two sliders. *)
Definition update_params (spin_val mass_val : float) (s : KerrLabFinal)
  : KerrLabFinal :=
  update_hud (update_geometry (set_M mass_val (set_a spin_val s))).

(** *** [update] *)

(** [omega * self.speed_mult] for one particle. *)
Definition orbit_step (mass r : float) : float :=
  ((1.5 * mass) * np_power r (-1.5)) * speed_mult.

(** [drag_factor] for one mesh point. *)
Definition drag_factor (spin r : float) : float :=
  (spin * drag_strength) / np_power r drag_power.

(** [Z_grid] for one mesh point, in each mode. *)
Definition Z_grid (newtonian : bool) (mass r : float) : float :=
  if newtonian then -7 + (-1.0 / r) else -7 + (-3.0 * mass / r).

Definition update (s : KerrLabFinal) : KerrLabFinal :=
  if paused s then s
  else
    (* 1. Update Particles *)
    let phi' :=
      zip_with (fun phi r => phi + orbit_step (M s) r) (p_phi s) (p_r s) in
    let x := zip_with (fun r phi => r * np_cos phi) (p_r s) phi' in
    let y := zip_with (fun r phi => r * np_sin phi) (p_r s) phi' in
    let s1 := set_scat_offsets3d (x, y, p_z s) (set_p_phi phi' s) in
    (* 2. Update Grid *)
    let s2 :=
      if negb (newtonian_mode s1) then
        set_P (mesh_zip_with (fun p r => p + drag_factor (a s1) r)
                 (P s1) (R s1)) s1
      else s1 in
    let color_grid :=
      if negb (newtonian_mode s1) then "#00ffff"%string
      else "#444444"%string in
    let Zg := mesh_map (Z_grid (newtonian_mode s1) (M s1)) (R s2) in
    let X_grid := mesh_zip_with (fun r p => r * np_cos p) (R s2) (P s2) in
    let Y_grid := mesh_zip_with (fun r p => r * np_sin p) (R s2) (P s2) in
    set_wframe (Some (mkWireframe X_grid Y_grid Zg color_grid)) s2.

(** The value [update] returns: the scatter artist, read through its
    offsets. *)
Definition update_returns (s : KerrLabFinal) : vec * vec * vec :=
  scat_offsets3d (update s).

(** *** [on_key] *)

Definition on_key (key : string) (s : KerrLabFinal) : KerrLabFinal :=
  if (key =? " ")%string then set_paused (negb (paused s)) s
  else if ((key =? "e") || (key =? "E"))%string then
    update_hud (set_info_mode ((info_mode s + 1) mod 4)%Z s)
  else if ((key =? "n") || (key =? "N"))%string then
    update_hud (update_geometry
                  (set_newtonian_mode (negb (newtonian_mode s)) s))
  else s.

(** *** [__init__] *)

(** The state built by the constructor, from the particle samples drawn by
    [init_particles] and the lattice built by [init_grid]. *)
Definition init (r0 phi0 z0 : vec) (R0 P0 : mesh) : KerrLabFinal :=
  let x := zip_with (fun r phi => r * np_cos phi) r0 phi0 in
  let y := zip_with (fun r phi => r * np_sin phi) r0 phi0 in
  update_hud (update_geometry
    (mkKerrLab false false 0%Z 1.0 0.90 r0 phi0 z0 (x, y, z0) R0 P0
       None None [])).

(** [n] frames of the animation driver. *)
Definition ticks (n : nat) (s : KerrLabFinal) : KerrLabFinal :=
  Nat.iter n update s.

End KerrLab.

(** The [E] key, as the interface names it. *)
Definition cycle_hud_panel {L : Library} (s : KerrLabFinal) : KerrLabFinal :=
  on_key "e" s.

(** The [N] key. *)
Definition toggle_newtonian {L : Library} (s : KerrLabFinal) : KerrLabFinal :=
  on_key "n" s.

(** The height array of the wireframe last drawn. *)
Definition grid_height (s : KerrLabFinal) : option mesh :=
  option_map wf_Z (wframe s).

(** ** A concrete library and concrete states *)

(** A power function for closed examples.  For the exponent 2 it is the
    correctly rounded square; for the exponent -1.5 it is exact wherever the
    power is representable and [x] is an even power of two, as at
    [4 ** -1.5 = 0.125]. *)
Definition pow_sample (x y : float) : float :=
  if y =? 2 then x * x
  else if y =? -1.5 then 1 / (x * sqrt x)
  else nan.

(** Stand-ins for cosine and sine (their low-order series); no property below
    depends on them. *)
Definition cos_sample (x : float) : float := 1 - x * x / 2.
Definition sin_sample (x : float) : float := x.

Definition sample_library : Library :=
  mkLibrary pow_sample pow_sample cos_sample sin_sample
    (fun _ _ => EmptyString) [[0; 1]] [[0; 0]].

(** One particle at radius 4 and azimuth 0, one mesh point at radius 2, in the
    state the constructor leaves (mass 1.0, spin 0.90, relativistic,
    unpaused). *)
Definition lab0 : KerrLabFinal :=
  @init sample_library [4.0] [0.0] [0.0] [[2.0]] [[0.0]].

(** The same simulation with the particle azimuth at [2^48]. *)
Definition lab_far : KerrLabFinal := set_p_phi [0x1p48] lab0.

(** The same simulation, paused. *)
Definition lab_paused : KerrLabFinal := set_paused true lab0.

(** ** Exact values *)

(** The rational number a finite float denotes, in lowest terms (0 for
    infinities and nan). *)
Definition F2Q (x : float) : Q :=
  match Prim2SF x with
  | S754_finite s m e =>
      Qred ((if s then (-1) else 1) * inject_Z (Z.pos m) * Qpower 2 e)%Q
  | _ => 0%Q
  end.

(** The real number a finite float denotes. *)
Definition F2R (x : float) : Rdefinitions.R := Q2R (F2Q x).

(** ** The specification's laws, in its own words *)

(** Two angles are equal modulo 2 pi. *)
Definition congruent_mod_2pi (x y : Rdefinitions.R) : Prop :=
  exists k : Z, (x - y = IZR k * (2 * PI))%R.

(** The analytic azimuth [azimuth0 + N * omega * 0.15] with
    [omega = 1.5 * mass * radius^(-1.5)], computed in the real numbers from
    the value the library returns for the power. *)
Definition analytic_azimuth {L : Library} (azimuth0 : float) (N : nat)
    (mass radius : float) : Rdefinitions.R :=
  (F2R azimuth0
   + INR N * (1.5 * F2R mass * F2R (np_power radius (-1.5))) * 0.15)%R.

(** The same closed form evaluated in binary64, left to right. *)
Definition analytic_azimuth_float {L : Library} (azimuth0 N : float)
    (mass radius : float) : float :=
  azimuth0 + N * (1.5 * mass * np_power radius (-1.5)) * 0.15.

(** The compounding law: after [N] frames every particle azimuth equals the
    analytic azimuth modulo 2 pi. *)
Definition azimuth_law {L : Library} (s : KerrLabFinal) (N : nat) : Prop :=
  forall (i : nat) (r phi0 phiN : float),
    nth_error (p_r s) i = Some r ->
    nth_error (p_phi s) i = Some phi0 ->
    nth_error (p_phi (ticks N s)) i = Some phiN ->
    congruent_mod_2pi (F2R phiN) (analytic_azimuth phi0 N (M s) r).


(** The mesh point in row [i], column [j]. *)
Definition mesh_at (m : mesh) (i j : nat) : option float :=
  match nth_error m i with
  | Some row => nth_error row j
  | None => None
  end.

(** ** The constructor's grid and the event loop *)

(** [np.meshgrid(x, y)] with the default indexing: both results have one row
    per entry of [y] and one column per entry of [x]; the first repeats [x]
    along the rows, the second repeats each entry of [y] along its row. *)
Definition np_meshgrid (x y : vec) : mesh * mesh :=
  (map (fun _ => x) y, map (fun yi => map (fun _ => yi) x) y).

(** [init_grid], from the two [np.linspace] samplings [grid_r] and
    [grid_phi]: the pair [(self.R, self.P)]. *)
Definition init_grid (grid_r grid_phi : vec) : mesh * mesh :=
  np_meshgrid grid_r grid_phi.

(** [KerrLabFinal()]: [init_particles] with the samples drawn, [init_grid],
    then the rest of [__init__]. *)
Definition construct {L : Library} (r0 phi0 z0 grid_r grid_phi : vec)
  : KerrLabFinal :=
  init r0 phi0 z0 (fst (init_grid grid_r grid_phi))
    (snd (init_grid grid_r grid_phi)).

(** What the callbacks registered by [__init__], [setup_ui] and [start] are
    called with: an animation frame, a key press, a slider change (with the
    values the two sliders then hold). *)
Inductive event : Set :=
| Frame
| KeyPress (key : string)
| SliderChanged (spin_val mass_val : float).

Definition dispatch {L : Library} (e : event) (s : KerrLabFinal)
  : KerrLabFinal :=
  match e with
  | Frame => update s
  | KeyPress key => on_key key s
  | SliderChanged spin_val mass_val => update_params spin_val mass_val s
  end.

(** The events of a session, in order. *)
Definition run {L : Library} (es : list event) (s : KerrLabFinal)
  : KerrLabFinal :=
  fold_left (fun st e => dispatch e st) es s.

(** The event is a press of the key that toggles the Newtonian mode. *)
Definition toggles_mode (e : event) : bool :=
  match e with
  | KeyPress key => ((key =? "n") || (key =? "N"))%string
  | _ => false
  end.

(** The event is a press of the space key. *)
Definition toggles_pause (e : event) : bool :=
  match e with
  | KeyPress key => (key =? " ")%string
  | _ => false
  end.

(** The HUD shows what [update_hud] would draw now. *)
Definition hud_in_sync {L : Library} (s : KerrLabFinal) : Prop :=
  text_objects s = text_objects (update_hud s).

(** The horizon surface is what [update_geometry] would draw now. *)
Definition horizon_in_sync {L : Library} (s : KerrLabFinal) : Prop :=
  horizon_surf s = horizon_surf (update_geometry s).

(** The scatter offsets are the Cartesian positions of the particles. *)
Definition scatter_in_sync {L : Library} (s : KerrLabFinal) : Prop :=
  scat_offsets3d s
  = (zip_with (fun r phi => r * np_cos phi) (p_r s) (p_phi s),
     zip_with (fun r phi => r * np_sin phi) (p_r s) (p_phi s),
     p_z s).

(** Two meshes have the same number of rows and the same row lengths. *)
Definition same_shape (m1 m2 : mesh) : Prop :=
  Forall2 (fun row1 row2 => List.length row1 = List.length row2) m1 m2.

(** Every entry of a mesh satisfies [Q]. *)
Definition mesh_all (Q : float -> Prop) (m : mesh) : Prop :=
  Forall (Forall Q) m.

(** A float that is a number: zero or finite, not an infinity, not nan. *)
Definition is_number (x : float) : bool :=
  match Prim2SF x with
  | S754_zero _ | S754_finite _ _ _ => true
  | _ => false
  end.

(** The negative zero. *)
Definition is_negative_zero (x : float) : bool :=
  match Prim2SF x with
  | S754_zero true => true
  | _ => false
  end.

(** [lab0] with the spin slider at 0 (the Schwarzschild case). *)
Definition lab_spin0 : KerrLabFinal :=
  @update_params sample_library 0.0 1.0 lab0.

(** A constructed simulation with two particles and a 3 x 2 lattice. *)
Definition lab2 : KerrLabFinal :=
  @construct sample_library [2.0; 4.0] [0.0; 1.0] [0.0; 0.0]
    [1.5; 2.0] [0.0; 1.0; 2.0].

(** * Properties *)

(** ** Arrays *)

Lemma nth_error_zip_with {A B C : Type} (f : A -> B -> C) :
  forall (l1 : list A) (l2 : list B) (i : nat) (x : A) (y : B),
    nth_error l1 i = Some x ->
    nth_error l2 i = Some y ->
    nth_error (zip_with f l1 l2) i = Some (f x y).
Proof.
  induction l1 as [|x1 l1 IH]; intros l2 i x y H1 H2.
  - destruct i; discriminate H1.
  - destruct l2 as [|y1 l2].
    + destruct i; discriminate H2.
    + destruct i as [|i]; simpl in *.
      * congruence.
      * now apply IH.
Qed.

Lemma mesh_at_zip_with (f : float -> float -> float) :
  forall (m1 m2 : mesh) (i j : nat) (x y : float),
    mesh_at m1 i j = Some x ->
    mesh_at m2 i j = Some y ->
    mesh_at (mesh_zip_with f m1 m2) i j = Some (f x y).
Proof.
  unfold mesh_at, mesh_zip_with. intros m1 m2 i j x y H1 H2.
  destruct (nth_error m1 i) as [row1|] eqn:E1; [|discriminate].
  destruct (nth_error m2 i) as [row2|] eqn:E2; [|discriminate].
  rewrite (nth_error_zip_with (zip_with f) m1 m2 i row1 row2 E1 E2).
  now apply nth_error_zip_with.
Qed.

(** ** IEEE facts *)

Lemma sqrt_negative (x : float) : (x <? 0) = true -> sqrt x = nan.
Proof.
  intros H. apply Prim2SF_inj. rewrite FloatAxioms.sqrt_spec.
  rewrite FloatAxioms.ltb_spec in H.
  change (Prim2SF 0) with (S754_zero false) in H.
  change (Prim2SF nan) with S754_nan.
  destruct (Prim2SF x) as [s|s| |s m e]; simpl in H; try discriminate;
    destruct s; try discriminate; reflexivity.
Qed.

Lemma add_nan_r (x : float) : x + nan = nan.
Proof.
  apply Prim2SF_inj. rewrite FloatAxioms.add_spec.
  change (Prim2SF nan) with S754_nan.
  destruct (Prim2SF x); reflexivity.
Qed.

Lemma eqb_nan_l (x : float) : (nan =? x) = false.
Proof.
  rewrite FloatAxioms.eqb_spec. change (Prim2SF nan) with S754_nan.
  reflexivity.
Qed.

(** ** Angles *)

(** Two distinct reals less than 4 apart are not congruent modulo 2 pi. *)
Lemma not_congruent_small (x y : Rdefinitions.R) :
  (x <> y)%R -> (Rabs (x - y) < 4)%R -> ~ congruent_mod_2pi x y.
Proof.
  intros Hne Hsmall [k Hk].
  assert (Hpi : (2 < PI)%R) by (pose proof PI2_1; lra).
  apply Rabs_def2 in Hsmall.
  destruct (Z_lt_le_dec k 1) as [Hlt|Hge].
  - destruct (Z_lt_le_dec (-1) k) as [Hgt|Hle].
    + assert (k = 0%Z) by lia. subst k. apply Hne. lra.
    + apply IZR_le in Hle.
      assert ((x - y <= -4)%R) by (rewrite Hk; nra). lra.
  - apply IZR_le in Hge.
    assert ((4 <= x - y)%R) by (rewrite Hk; nra). lra.
Qed.

Section Properties.

Context {L : Library}.

(** ** What [update] leaves alone *)

Lemma update_paused (s : KerrLabFinal) : paused s = true -> update s = s.
Proof. intros H. unfold update. now rewrite H. Qed.

Lemma update_frame (s : KerrLabFinal) :
  paused (update s) = paused s
  /\ newtonian_mode (update s) = newtonian_mode s
  /\ info_mode (update s) = info_mode s
  /\ M (update s) = M s
  /\ a (update s) = a s
  /\ p_r (update s) = p_r s
  /\ p_z (update s) = p_z s
  /\ R (update s) = R s
  /\ horizon_surf (update s) = horizon_surf s
  /\ text_objects (update s) = text_objects s.
Proof.
  unfold update.
  destruct (paused s) eqn:Hp; [repeat split; exact Hp|].
  cbn. destruct (newtonian_mode s) eqn:Hn; cbn; repeat split; assumption.
Qed.

Lemma ticks_S (n : nat) (s : KerrLabFinal) :
  ticks (S n) s = update (ticks n s).
Proof. reflexivity. Qed.

Lemma ticks_frame (n : nat) (s : KerrLabFinal) :
  paused (ticks n s) = paused s
  /\ newtonian_mode (ticks n s) = newtonian_mode s
  /\ info_mode (ticks n s) = info_mode s
  /\ M (ticks n s) = M s
  /\ a (ticks n s) = a s
  /\ p_r (ticks n s) = p_r s
  /\ p_z (ticks n s) = p_z s
  /\ R (ticks n s) = R s
  /\ horizon_surf (ticks n s) = horizon_surf s
  /\ text_objects (ticks n s) = text_objects s.
Proof.
  induction n as [|n IH].
  - repeat split.
  - rewrite ticks_S.
    destruct (update_frame (ticks n s))
      as (U1 & U2 & U3 & U4 & U5 & U6 & U7 & U8 & U9 & U10).
    destruct IH as (I1 & I2 & I3 & I4 & I5 & I6 & I7 & I8 & I9 & I10).
    repeat split; congruence.
Qed.


Lemma update_P_relativistic (s : KerrLabFinal) :
  paused s = false ->
  newtonian_mode s = false ->
  P (update s)
  = mesh_zip_with (fun p r => p + drag_factor (a s) r) (P s) (R s).
Proof.
  intros Hp Hn. unfold update. rewrite Hp. cbn. rewrite Hn. reflexivity.
Qed.

Lemma update_P_newtonian (s : KerrLabFinal) :
  newtonian_mode s = true -> P (update s) = P s.
Proof.
  intros Hn. unfold update.
  destruct (paused s); [reflexivity|]. cbn. rewrite Hn. reflexivity.
Qed.

Lemma update_grid_height (s : KerrLabFinal) :
  paused s = false ->
  grid_height (update s)
  = Some (mesh_map (Z_grid (newtonian_mode s) (M s)) (R s)).
Proof.
  intros Hp. unfold grid_height, update. rewrite Hp. cbn.
  destruct (newtonian_mode s); reflexivity.
Qed.

(** ** Pausing *)

(** C8. While [paused] is true a frame is a no-op: [update] returns the state
    it was given, so every particle azimuth, every grid azimuth and all other
    state are unchanged, the artist it returns carries the positions computed
    last, and any number of paused frames leaves the state as it was. *)
Theorem update_paused_noop (s : KerrLabFinal) (Hpaused : paused s = true) :
  update s = s
  /\ update_returns s = scat_offsets3d s
  /\ forall n : nat, ticks n s = s.
Proof.
  split; [now apply update_paused|].
  split; [unfold update_returns; now rewrite update_paused|].
  induction n as [|n IH]; [reflexivity|].
  rewrite ticks_S, IH. now apply update_paused.
Qed.

(** ** The HUD panel *)

Lemma on_key_E (s : KerrLabFinal) : on_key "E" s = on_key "e" s.
Proof. reflexivity. Qed.

Lemma cycle_hud_panel_eq (s : KerrLabFinal) :
  cycle_hud_panel s
  = update_hud (set_info_mode ((info_mode s + 1) mod 4)%Z s).
Proof. reflexivity. Qed.

Lemma info_mode_update_hud (s : KerrLabFinal) :
  info_mode (update_hud s) = info_mode s.
Proof. reflexivity. Qed.

Lemma info_mode_cycle (s : KerrLabFinal) :
  info_mode (cycle_hud_panel s) = ((info_mode s + 1) mod 4)%Z.
Proof. reflexivity. Qed.

Lemma info_mode_cycle_iter (k : nat) (s : KerrLabFinal) :
  (0 <= info_mode s < 4)%Z ->
  info_mode (Nat.iter k cycle_hud_panel s)
  = ((info_mode s + Z.of_nat k) mod 4)%Z.
Proof.
  intros Hs. induction k as [|k IH].
  - change (Nat.iter 0 cycle_hud_panel s) with s.
    rewrite Z.add_0_r, Z.mod_small; [reflexivity|exact Hs].
  - rewrite Nat.iter_succ, info_mode_cycle, IH.
    rewrite Zplus_mod_idemp_l. f_equal. lia.
Qed.

(** C9. [cycle_hud_panel] steps the panel through exactly four states in a
    fixed order, [i] to [(i + 1) mod 4]: from every panel 0..3, one, two or
    three presses leave a different panel and four presses return the original
    one; the panel never leaves 0..3. *)
Theorem cycle_hud_panel_order_4 (s : KerrLabFinal)
    (Hpanel : (0 <= info_mode s < 4)%Z) :
  info_mode (Nat.iter 4 cycle_hud_panel s) = info_mode s
  /\ (forall k : nat,
        (0 < k < 4)%nat ->
        info_mode (Nat.iter k cycle_hud_panel s) <> info_mode s)
  /\ (forall k : nat,
        (0 <= info_mode (Nat.iter k cycle_hud_panel s) < 4)%Z)
  /\ info_mode (cycle_hud_panel s) = ((info_mode s + 1) mod 4)%Z.
Proof.
  split; [|split; [|split]].
  - rewrite info_mode_cycle_iter by exact Hpanel.
    change (Z.of_nat 4) with (1 * 4)%Z.
    rewrite Z.mod_add by lia. now apply Z.mod_small.
  - intros k Hk. rewrite info_mode_cycle_iter by exact Hpanel.
    assert (Hcases : k = 1%nat \/ k = 2%nat \/ k = 3%nat) by lia.
    assert (Hi : (info_mode s = 0 \/ info_mode s = 1 \/ info_mode s = 2
                  \/ info_mode s = 3)%Z) by lia.
    destruct Hcases as [-> | [-> | ->]];
      destruct Hi as [-> | [-> | [-> | ->]]]; vm_compute; discriminate.
  - intros k. rewrite info_mode_cycle_iter by exact Hpanel.
    apply Z.mod_pos_bound. lia.
  - apply info_mode_cycle.
Qed.

(** C10. Cycling the HUD panel touches no physical state: mass, spin, the
    Newtonian and paused flags, every particle radius, azimuth and height, the
    drawn positions, the grid lattice and azimuths, the wireframe, the horizon
    surface and the horizon radius are as before; the new state is the old one
    with only the panel index and the HUD text replaced. *)
Theorem cycle_hud_panel_frame (s : KerrLabFinal) :
  M (cycle_hud_panel s) = M s
  /\ a (cycle_hud_panel s) = a s
  /\ newtonian_mode (cycle_hud_panel s) = newtonian_mode s
  /\ paused (cycle_hud_panel s) = paused s
  /\ p_r (cycle_hud_panel s) = p_r s
  /\ p_phi (cycle_hud_panel s) = p_phi s
  /\ p_z (cycle_hud_panel s) = p_z s
  /\ scat_offsets3d (cycle_hud_panel s) = scat_offsets3d s
  /\ R (cycle_hud_panel s) = R s
  /\ P (cycle_hud_panel s) = P s
  /\ wframe (cycle_hud_panel s) = wframe s
  /\ horizon_surf (cycle_hud_panel s) = horizon_surf s
  /\ r_plus (M (cycle_hud_panel s)) (a (cycle_hud_panel s))
     = r_plus (M s) (a s)
  /\ cycle_hud_panel s
     = set_text_objects (text_objects (cycle_hud_panel s))
         (set_info_mode (info_mode (cycle_hud_panel s)) s).
Proof.
  rewrite cycle_hud_panel_eq. unfold update_hud. cbn. repeat split.
Qed.

(** ** The grid *)

Lemma update_P (s : KerrLabFinal) :
  P (update s)
  = if paused s then P s
    else if newtonian_mode s then P s
    else mesh_zip_with (fun p r => p + drag_factor (a s) r) (P s) (R s).
Proof.
  unfold update. destruct (paused s); [reflexivity|].
  cbn. destruct (newtonian_mode s); reflexivity.
Qed.

Lemma ticks_P_newtonian (k : nat) (s : KerrLabFinal) :
  newtonian_mode s = true -> P (ticks k s) = P s.
Proof.
  intros Hn. induction k as [|k IH]; [reflexivity|].
  rewrite ticks_S, update_P_newtonian; [exact IH|].
  destruct (ticks_frame k s) as (_ & Hmode & _). congruence.
Qed.

Lemma toggle_newtonian_frame (s : KerrLabFinal) :
  newtonian_mode (toggle_newtonian s) = negb (newtonian_mode s)
  /\ paused (toggle_newtonian s) = paused s
  /\ a (toggle_newtonian s) = a s
  /\ M (toggle_newtonian s) = M s
  /\ R (toggle_newtonian s) = R s
  /\ P (toggle_newtonian s) = P s.
Proof. repeat split. Qed.

(** C3. From a relativistic state, after [n] frames, a switch to Newtonian
    mode, [m] further frames and a switch back, every grid azimuth is exactly
    what it was after the first [n] frames, whatever [m] is: the Newtonian
    frames skip the twist (the azimuths are the frozen ones after each of
    them), the mode is relativistic again, and the next frame twists from the
    frozen value as it would have without the interlude. *)
Theorem newtonian_interlude_freezes_grid (s : KerrLabFinal) (n m : nat)
    (Hrel : newtonian_mode s = false) :
  P (toggle_newtonian (ticks m (toggle_newtonian (ticks n s))))
  = P (ticks n s)
  /\ (forall k : nat, P (ticks k (toggle_newtonian (ticks n s))) = P (ticks n s))
  /\ newtonian_mode (toggle_newtonian (ticks m (toggle_newtonian (ticks n s))))
     = false
  /\ P (update (toggle_newtonian (ticks m (toggle_newtonian (ticks n s)))))
     = P (update (ticks n s)).
Proof.
  destruct (ticks_frame n s) as (Hp1 & Hn1 & _ & _ & Ha1 & _ & _ & HR1 & _).
  set (s1 := ticks n s) in *.
  destruct (toggle_newtonian_frame s1) as (Hn2 & Hp2 & Ha2 & _ & HR2 & HP2).
  set (s2 := toggle_newtonian s1) in *.
  assert (Hnewt : newtonian_mode s2 = true) by (rewrite Hn2, Hn1, Hrel; reflexivity).
  assert (Hfrozen : forall k, P (ticks k s2) = P s1).
  { intros k. rewrite ticks_P_newtonian by exact Hnewt. exact HP2. }
  destruct (ticks_frame m s2) as (Hp3 & Hn3 & _ & _ & Ha3 & _ & _ & HR3 & _).
  set (s3 := ticks m s2) in *.
  destruct (toggle_newtonian_frame s3) as (Hn4 & Hp4 & Ha4 & _ & HR4 & HP4).
  set (s4 := toggle_newtonian s3) in *.
  assert (HP : P s4 = P s1) by (rewrite HP4; apply Hfrozen).
  assert (Hmode : newtonian_mode s4 = false)
    by (rewrite Hn4, Hn3, Hnewt; reflexivity).
  repeat split; try assumption.
  rewrite !update_P.
  replace (paused s4) with (paused s1) by congruence.
  replace (newtonian_mode s4) with (newtonian_mode s1) by congruence.
  replace (a s4) with (a s1) by congruence.
  replace (R s4) with (R s1) by congruence.
  rewrite HP. reflexivity.
Qed.

(** C4. The grid height depends on the radius lattice, the mass and the mode
    alone: a running frame draws [Z_grid] over [R], two consecutive frames
    draw the same heights, two states that agree on lattice, mass and mode
    draw the same heights whatever else differs, and [Z_grid] is
    [-7 + (-3 * mass / radius)] in relativistic mode and [-7 + (-1 / radius)],
    free of the mass, in Newtonian mode. *)
Theorem grid_height_pure (s : KerrLabFinal) (Hrun : paused s = false) :
  grid_height (update s)
  = Some (mesh_map (Z_grid (newtonian_mode s) (M s)) (R s))
  /\ grid_height (update (update s)) = grid_height (update s)
  /\ (forall s' : KerrLabFinal,
        paused s' = false ->
        R s' = R s -> M s' = M s -> newtonian_mode s' = newtonian_mode s ->
        grid_height (update s') = grid_height (update s))
  /\ (forall mass r : float, Z_grid false mass r = -7 + (-3 * mass / r))
  /\ (forall mass mass' r : float,
        Z_grid true mass r = -7 + (-1 / r)
        /\ Z_grid true mass' r = Z_grid true mass r).
Proof.
  destruct (update_frame s) as (Hp & Hn & _ & HM & _ & _ & _ & HR & _).
  split; [now apply update_grid_height|].
  split.
  { rewrite (update_grid_height (update s)) by congruence.
    rewrite (update_grid_height s) by exact Hrun.
    now rewrite Hn, HM, HR. }
  split.
  { intros s' Hp' HR' HM' Hn'.
    rewrite (update_grid_height s') by exact Hp'.
    rewrite (update_grid_height s) by exact Hrun.
    now rewrite Hn', HM', HR'. }
  split; [reflexivity|]. intros; split; reflexivity.
Qed.

Lemma ticks_mesh_at_P (s : KerrLabFinal) (i j : nat) (p r : float) :
  paused s = false ->
  newtonian_mode s = false ->
  mesh_at (P s) i j = Some p ->
  mesh_at (R s) i j = Some r ->
  forall n : nat,
    mesh_at (P (ticks n s)) i j
    = Some (Nat.iter n (fun x => x + drag_factor (a s) r) p).
Proof.
  intros Hp Hn HP HR. induction n as [|n IH]; [exact HP|].
  destruct (ticks_frame n s) as (Hp' & Hn' & _ & _ & Ha' & _ & _ & HR' & _).
  rewrite ticks_S, update_P_relativistic by congruence.
  rewrite Nat.iter_succ, Ha'.
  apply (mesh_at_zip_with (fun p0 r0 => p0 + drag_factor (a s) r0));
    [exact IH | now rewrite HR'].
Qed.

(** C7. In relativistic mode a running frame adds
    [(spin * 0.5) / radius ** 2.0] to the azimuth of every mesh point, and
    the twist accumulates: after [n] frames the azimuth is the start value
    with that drag added [n] times, with no re-basing and no wrap-around;
    the radius lattice never changes. *)
Theorem frame_dragging_twist (s : KerrLabFinal) (i j : nat) (p r : float)
    (Hrun : paused s = false) (Hrel : newtonian_mode s = false)
    (Hp : mesh_at (P s) i j = Some p) (Hr : mesh_at (R s) i j = Some r) :
  mesh_at (P (update s)) i j = Some (p + (a s * 0.5) / np_power r 2.0)
  /\ (forall n : nat,
        mesh_at (P (ticks n s)) i j
        = Some (Nat.iter n (fun x => x + (a s * 0.5) / np_power r 2.0) p))
  /\ (forall n : nat, R (ticks n s) = R s).
Proof.
  split; [|split].
  - apply (ticks_mesh_at_P s i j p r Hrun Hrel Hp Hr 1).
  - apply (ticks_mesh_at_P s i j p r Hrun Hrel Hp Hr).
  - intros n. now destruct (ticks_frame n s) as (_ & _ & _ & _ & _ & _ & _ & HR & _).
Qed.

(** ** The horizon *)

Lemma r_plus_formula (mass spin : float) :
  r_plus mass spin = mass + sqrt (py_pow mass 2 - py_pow spin 2).
Proof. reflexivity. Qed.

(** C5. Whenever [mass ** 2 >= spin ** 2] the horizon radius is
    [mass + sqrt (mass ** 2 - spin ** 2)]; in the Schwarzschild case, mass 1.0
    and spin 0.0, it is exactly 2.0.  The two hypotheses are the values the C
    standard fixes for [pow(1, 2)] and [pow(0, 2)]. *)
Theorem kerr_horizon_radius
    (Hpow_one : py_pow 1 2 = 1) (Hpow_zero : py_pow 0 2 = 0) :
  (forall mass spin : float,
     (py_pow spin 2 <=? py_pow mass 2) = true ->
     r_plus mass spin = mass + sqrt (py_pow mass 2 - py_pow spin 2))
  /\ r_plus 1.0 0.0 = 2.0.
Proof.
  split.
  - intros mass spin _. apply r_plus_formula.
  - rewrite r_plus_formula, Hpow_one, Hpow_zero. reflexivity.
Qed.

(** C1 (the code departs from it). Whenever the discriminant
    [mass ** 2 - spin ** 2] is negative, the [try] block of [update_geometry]
    completes without an exception: [np.sqrt] yields [nan], the [except]
    branch is not taken, and the horizon radius is [nan] and not the mass (it
    compares unequal to every number). *)
Theorem naked_singularity_no_fallback (mass spin : float)
    (Hneg : (py_pow mass 2 - py_pow spin 2 <? 0) = true) :
  np_sqrt (py_pow mass 2 - py_pow spin 2) = inr nan
  /\ r_plus mass spin = nan
  /\ (r_plus mass spin =? mass) = false.
Proof.
  assert (Hroot : sqrt (py_pow mass 2 - py_pow spin 2) = nan)
    by now apply sqrt_negative.
  assert (Hr : r_plus mass spin = nan)
    by (rewrite r_plus_formula, Hroot; apply add_nan_r).
  split; [unfold np_sqrt; now rewrite Hroot|].
  split; [exact Hr|]. rewrite Hr. apply eqb_nan_l.
Qed.

(** ** The particles *)




End Properties.

(** * Concrete runs *)

(** ** Instances of the theorems on [sample_library] and [lab0] *)

Lemma update_paused_noop_witness :
  paused lab_paused = true
  /\ @update sample_library lab_paused = lab_paused
  /\ @update_returns sample_library lab_paused = scat_offsets3d lab_paused
  /\ forall n : nat, @ticks sample_library n lab_paused = lab_paused.
Proof.
  split; [reflexivity|].
  apply (@update_paused_noop sample_library lab_paused). reflexivity.
Defined.

Lemma cycle_hud_panel_order_4_witness :
  info_mode (Nat.iter 4 (@cycle_hud_panel sample_library) lab0)
  = info_mode lab0
  /\ (forall k : nat,
        (0 < k < 4)%nat ->
        info_mode (Nat.iter k (@cycle_hud_panel sample_library) lab0)
        <> info_mode lab0)
  /\ (forall k : nat,
        (0 <= info_mode (Nat.iter k (@cycle_hud_panel sample_library) lab0)
         < 4)%Z)
  /\ info_mode (@cycle_hud_panel sample_library lab0)
     = ((info_mode lab0 + 1) mod 4)%Z.
Proof.
  apply (@cycle_hud_panel_order_4 sample_library lab0).
  split; [discriminate | reflexivity].
Defined.

Lemma newtonian_interlude_freezes_grid_witness :
  newtonian_mode lab0 = false
  /\ P (@toggle_newtonian sample_library
          (@ticks sample_library 3
             (@toggle_newtonian sample_library
                (@ticks sample_library 2 lab0))))
     = P (@ticks sample_library 2 lab0).
Proof.
  split; [reflexivity|].
  exact (proj1 (@newtonian_interlude_freezes_grid sample_library lab0 2 3
                  eq_refl)).
Defined.

Lemma grid_height_pure_witness :
  paused lab0 = false
  /\ grid_height (@update sample_library lab0) = Some [[-8.5]]
  /\ grid_height (@update sample_library (@update sample_library lab0))
     = grid_height (@update sample_library lab0).
Proof.
  split; [reflexivity|].
  destruct (@grid_height_pure sample_library lab0 eq_refl) as (H1 & H2 & _).
  split; [exact H1 | exact H2].
Defined.

Lemma frame_dragging_twist_witness :
  mesh_at (P lab0) 0 0 = Some 0
  /\ mesh_at (R lab0) 0 0 = Some 2
  /\ mesh_at (P (@update sample_library lab0)) 0 0
     = Some (0 + (0.90 * 0.5) / (2 * 2)).
Proof.
  split; [reflexivity|]. split; [reflexivity|].
  exact (proj1 (@frame_dragging_twist sample_library lab0 0 0 0 2
                  eq_refl eq_refl eq_refl eq_refl)).
Defined.

Lemma kerr_horizon_radius_witness :
  @py_pow sample_library 1 2 = 1
  /\ @py_pow sample_library 0 2 = 0
  /\ @r_plus sample_library 1.0 0.0 = 2.0.
Proof.
  split; [reflexivity|]. split; [reflexivity|].
  exact (proj2 (@kerr_horizon_radius sample_library eq_refl eq_refl)).
Defined.

Lemma naked_singularity_no_fallback_witness :
  (@py_pow sample_library 0.5 2 - @py_pow sample_library 0.99 2 <? 0) = true
  /\ @r_plus sample_library 0.5 0.99 = nan
  /\ (@r_plus sample_library 0.5 0.99 =? 0.5) = false.
Proof.
  split; [reflexivity|].
  exact (proj2 (@naked_singularity_no_fallback sample_library 0.5 0.99
                  eq_refl)).
Defined.



(** ** Where the closed form and strict monotonicity fail *)

(** Six frames from [lab0] (radius 4, mass 1, azimuth 0) leave the azimuth at
    0.16875000000000001, while the closed form evaluated in binary64 gives
    0.16874999999999998; nor is the azimuth six times the rounded per-frame
    increment in exact arithmetic. *)
Lemma six_frames_binary64 :
  nth_error (p_phi (@ticks sample_library 6 lab0)) 0
  = Some 0x1.599999999999ap-3
  /\ @analytic_azimuth_float sample_library 0 6 1 4 = 0x1.5999999999999p-3
  /\ ~ (F2Q 0x1.599999999999ap-3
        == F2Q 0 + 6 * F2Q (@orbit_step sample_library 1 4))%Q.
Proof.
  split; [vm_compute; reflexivity|].
  split; [vm_compute; reflexivity|].
  intros H. vm_compute in H. discriminate H.
Qed.


(** The same law fails by a whole 2.8125 radians from azimuth [2^48]: a
    hundred frames leave the azimuth where it was. *)
Lemma azimuth_law_fails_far : ~ @azimuth_law sample_library lab_far 100.
Proof.
  intros H.
  assert (Hphi : nth_error (p_phi (@ticks sample_library 100 lab_far)) 0
                 = Some 0x1p48) by (vm_compute; reflexivity).
  specialize (H 0%nat 4 0x1p48 _ eq_refl eq_refl Hphi).
  revert H.
  assert (E1 : F2Q 0x1p48 = (281474976710656 # 1)%Q)
    by (vm_compute; reflexivity).
  assert (E3 : F2Q (M lab_far) = 1%Q) by (vm_compute; reflexivity).
  assert (E4 : F2Q (@np_power sample_library 4 (-1.5)) = (1 # 8)%Q)
    by (vm_compute; reflexivity).
  assert (E5 : INR 100 = 100%R) by (rewrite INR_IZR_INZ; reflexivity).
  apply not_congruent_small; unfold analytic_azimuth, F2R;
    rewrite E1, E3, E4, E5; unfold Q2R; cbn [Qnum Qden].
  - lra.
  - apply Rabs_def1; lra.
Qed.


(** At that state the frame leaves the azimuth as it was, unpaused, with the
    increment 0.028124999999999997. *)
Lemma far_frame_stalls :
  paused lab_far = false
  /\ p_phi (@update sample_library lab_far) = p_phi lab_far
  /\ @orbit_step sample_library (M lab_far) 4 = 0x1.cccccccccccccp-6.
Proof. repeat split. Qed.

(** * Further properties of the handlers and the event loop *)

Section Handlers.

Context {L : Library}.

(** ** Keys *)

Lemma on_key_cases (key : string) (s : KerrLabFinal) :
  on_key key s = set_paused (negb (paused s)) s
  \/ on_key key s = cycle_hud_panel s
  \/ on_key key s = toggle_newtonian s
  \/ on_key key s = s.
Proof.
  unfold on_key.
  destruct (key =? " ")%string; [now left|].
  destruct ((key =? "e") || (key =? "E"))%string; [right; now left|].
  destruct ((key =? "n") || (key =? "N"))%string;
    [right; right; now left | now repeat right].
Qed.

Lemma ticks_paused (n : nat) (s : KerrLabFinal) :
  paused s = true -> ticks n s = s.
Proof.
  intros Hp. induction n as [|n IH]; [reflexivity|].
  rewrite ticks_S, IH. now apply update_paused.
Qed.

(** The space key flips [paused] and nothing else, so two presses restore the
    state; from a running state, pausing, letting any number of frames pass
    and resuming gives back exactly the state at the moment of the pause. *)
Theorem pause_resume_identity (s : KerrLabFinal) (n : nat)
    (Hrun : paused s = false) :
  on_key " " (ticks n (on_key " " s)) = s
  /\ on_key " " (on_key " " s) = s
  /\ on_key " " s = set_paused true s.
Proof.
  assert (Hpress : on_key " " s = set_paused true s).
  { unfold on_key. cbn. now rewrite Hrun. }
  assert (Hback : on_key " " (set_paused true s) = s).
  { destruct s; cbn in *; subst; reflexivity. }
  rewrite Hpress, ticks_paused by reflexivity.
  repeat split; exact Hback.
Qed.

(** A key other than space, [e], [E], [n], [N] is ignored: the state is
    returned as it is.  The letter keys do not depend on case. *)
Theorem unbound_key_ignored (key : string) (s : KerrLabFinal)
    (Hspace : key <> " "%string)
    (He : key <> "e"%string) (HE : key <> "E"%string)
    (Hn : key <> "n"%string) (HN : key <> "N"%string) :
  on_key key s = s
  /\ on_key "E" s = on_key "e" s
  /\ on_key "N" s = on_key "n" s.
Proof.
  split; [|split; reflexivity].
  unfold on_key.
  apply String.eqb_neq in Hspace, He, HE, Hn, HN.
  now rewrite Hspace, He, HE, Hn, HN.
Qed.

(** ** What the HUD and the horizon depend on *)

Lemma update_hud_ext (s1 s2 : KerrLabFinal) :
  info_mode s1 = info_mode s2 ->
  newtonian_mode s1 = newtonian_mode s2 ->
  a s1 = a s2 ->
  M s1 = M s2 ->
  text_objects (update_hud s1) = text_objects (update_hud s2).
Proof.
  intros Hi Hn Ha HM. unfold update_hud. cbn.
  now rewrite Hi, Hn, Ha, HM.
Qed.

Lemma update_geometry_ext (s1 s2 : KerrLabFinal) :
  newtonian_mode s1 = newtonian_mode s2 ->
  a s1 = a s2 ->
  M s1 = M s2 ->
  horizon_surf (update_geometry s1) = horizon_surf (update_geometry s2).
Proof.
  intros Hn Ha HM. unfold update_geometry. cbn.
  now rewrite Hn, Ha, HM.
Qed.

Lemma refresh_eq (s : KerrLabFinal) :
  update_hud (update_geometry s)
  = set_text_objects (text_objects (update_hud s))
      (set_horizon_surf (horizon_surf (update_geometry s)) s).
Proof. reflexivity. Qed.

(** Two presses of the [N] key leave the mode as it was and amount to one
    refresh of the horizon and the HUD; when both were up to date, the state
    is back exactly. *)
Theorem toggle_newtonian_twice (s : KerrLabFinal) :
  toggle_newtonian (toggle_newtonian s) = update_hud (update_geometry s)
  /\ newtonian_mode (toggle_newtonian (toggle_newtonian s)) = newtonian_mode s
  /\ (hud_in_sync s -> horizon_in_sync s ->
      toggle_newtonian (toggle_newtonian s) = s).
Proof.
  assert (Htwice : toggle_newtonian (toggle_newtonian s)
                   = update_hud (update_geometry s)).
  { destruct s as [pa nm im m0 a0 pr pp pz sc r0 p0 wf hs tx].
    unfold toggle_newtonian, on_key. cbn.
    rewrite negb_involutive. reflexivity. }
  split; [exact Htwice|]. split; [now rewrite Htwice|].
  intros Hhud Hhor. rewrite Htwice, refresh_eq.
  unfold hud_in_sync, horizon_in_sync in *.
  rewrite <- Hhud, <- Hhor. now destruct s.
Qed.

(** Cycling the HUD panel commutes with the animation: pressing [E] before
    or after any number of frames gives the same state. *)
Theorem cycle_hud_panel_commutes_with_frames (s : KerrLabFinal) (n : nat) :
  ticks n (cycle_hud_panel s) = cycle_hud_panel (ticks n s).
Proof.
  induction n as [|n IH]; [reflexivity|].
  rewrite !ticks_S, IH.
  generalize (ticks n s). intros t.
  destruct t as [pa nm im m0 a0 pr pp pz sc r0 p0 wf hs tx].
  unfold update, cycle_hud_panel, on_key. cbn.
  destruct pa; [reflexivity|]. cbn. destruct nm; reflexivity.
Qed.

(** ** The sliders *)

(** A slider change stores the two values and refreshes the horizon and the
    HUD, also while paused; it touches nothing else, and of two changes in a
    row only the last one counts. *)
Theorem update_params_last_wins (spin mass spin' mass' : float)
    (s : KerrLabFinal) :
  update_params spin mass (update_params spin' mass' s)
  = update_params spin mass s
  /\ a (update_params spin mass s) = spin
  /\ M (update_params spin mass s) = mass
  /\ hud_in_sync (update_params spin mass s)
  /\ horizon_in_sync (update_params spin mass s)
  /\ update_params spin mass s
     = set_text_objects (text_objects (update_params spin mass s))
         (set_horizon_surf (horizon_surf (update_params spin mass s))
            (set_M mass (set_a spin s))).
Proof.
  repeat split.
Qed.

End Handlers.

Section EventLoop.

Context {L : Library}.

(** ** Invariants of the event loop *)

Lemma run_invariant (Inv : KerrLabFinal -> Prop) :
  (forall e s, Inv s -> Inv (dispatch e s)) ->
  forall es s, Inv s -> Inv (run es s).
Proof.
  intros Hstep es. unfold run.
  induction es as [|e es IH]; intros s Hs; [exact Hs|].
  cbn. apply IH. now apply Hstep.
Qed.

Lemma hud_in_sync_update_hud (s : KerrLabFinal) : hud_in_sync (update_hud s).
Proof. unfold hud_in_sync. now apply update_hud_ext. Qed.

Lemma hud_in_sync_transfer (s t : KerrLabFinal) :
  info_mode t = info_mode s ->
  newtonian_mode t = newtonian_mode s ->
  a t = a s ->
  M t = M s ->
  text_objects t = text_objects s ->
  hud_in_sync s -> hud_in_sync t.
Proof.
  unfold hud_in_sync. intros Hi Hn Ha HM Ht Hs.
  rewrite Ht, Hs. symmetry. now apply update_hud_ext.
Qed.

Lemma horizon_in_sync_update_geometry (s : KerrLabFinal) :
  horizon_in_sync (update_geometry s).
Proof. unfold horizon_in_sync. now apply update_geometry_ext. Qed.

Lemma horizon_in_sync_transfer (s t : KerrLabFinal) :
  newtonian_mode t = newtonian_mode s ->
  a t = a s ->
  M t = M s ->
  horizon_surf t = horizon_surf s ->
  horizon_in_sync s -> horizon_in_sync t.
Proof.
  unfold horizon_in_sync. intros Hn Ha HM Ht Hs.
  rewrite Ht, Hs. symmetry. now apply update_geometry_ext.
Qed.

Lemma dispatch_hud_in_sync (e : event) (s : KerrLabFinal) :
  hud_in_sync s -> hud_in_sync (dispatch e s).
Proof.
  intros Hs. destruct e as [|key|spin mass]; cbn [dispatch].
  - destruct (update_frame s)
      as (_ & Hn & Hi & HM & Ha & _ & _ & _ & _ & Ht).
    now apply (hud_in_sync_transfer s).
  - destruct (on_key_cases key s) as [H | [H | [H | H]]]; rewrite H.
    + now apply (hud_in_sync_transfer s).
    + apply hud_in_sync_update_hud.
    + apply hud_in_sync_update_hud.
    + exact Hs.
  - apply hud_in_sync_update_hud.
Qed.

Lemma dispatch_horizon_in_sync (e : event) (s : KerrLabFinal) :
  horizon_in_sync s -> horizon_in_sync (dispatch e s).
Proof.
  intros Hs. destruct e as [|key|spin mass]; cbn [dispatch].
  - destruct (update_frame s)
      as (_ & Hn & _ & HM & Ha & _ & _ & _ & Hh & _).
    now apply (horizon_in_sync_transfer s).
  - destruct (on_key_cases key s) as [H | [H | [H | H]]]; rewrite H.
    + now apply (horizon_in_sync_transfer s).
    + now apply (horizon_in_sync_transfer s).
    + apply (horizon_in_sync_transfer
               (update_geometry
                  (set_newtonian_mode (negb (newtonian_mode s)) s)));
        [reflexivity .. | apply horizon_in_sync_update_geometry].
    + exact Hs.
  - apply (horizon_in_sync_transfer
             (update_geometry (set_M mass (set_a spin s))));
      [reflexivity .. | apply horizon_in_sync_update_geometry].
Qed.

Lemma scatter_in_sync_transfer (s t : KerrLabFinal) :
  p_r t = p_r s ->
  p_phi t = p_phi s ->
  p_z t = p_z s ->
  scat_offsets3d t = scat_offsets3d s ->
  scatter_in_sync s -> scatter_in_sync t.
Proof.
  unfold scatter_in_sync. intros Hr Hphi Hz Ho Hs.
  now rewrite Hr, Hphi, Hz, Ho.
Qed.

Lemma update_scatter_in_sync (s : KerrLabFinal) :
  scatter_in_sync s -> scatter_in_sync (update s).
Proof.
  intros Hs. unfold update.
  destruct (paused s); [exact Hs|].
  unfold scatter_in_sync. cbn. destruct (newtonian_mode s); reflexivity.
Qed.

Lemma dispatch_scatter_in_sync (e : event) (s : KerrLabFinal) :
  scatter_in_sync s -> scatter_in_sync (dispatch e s).
Proof.
  intros Hs. destruct e as [|key|spin mass]; cbn [dispatch].
  - now apply update_scatter_in_sync.
  - destruct (on_key_cases key s) as [H | [H | [H | H]]]; rewrite H;
      try exact Hs; now apply (scatter_in_sync_transfer s).
  - now apply (scatter_in_sync_transfer s).
Qed.

Lemma dispatch_info_mode (e : event) (s : KerrLabFinal) :
  (0 <= info_mode s < 4)%Z -> (0 <= info_mode (dispatch e s) < 4)%Z.
Proof.
  intros Hs. destruct e as [|key|spin mass]; cbn [dispatch].
  - destruct (update_frame s) as (_ & _ & Hi & _). now rewrite Hi.
  - destruct (on_key_cases key s) as [H | [H | [H | H]]]; rewrite H;
      try exact Hs.
    rewrite info_mode_cycle. apply Z.mod_pos_bound. lia.
  - exact Hs.
Qed.

Lemma run_hud_in_sync (es : list event) (r0 phi0 z0 grid_r grid_phi : vec) :
  hud_in_sync (run es (construct r0 phi0 z0 grid_r grid_phi)).
Proof.
  apply (run_invariant hud_in_sync); [exact dispatch_hud_in_sync|].
  apply hud_in_sync_update_hud.
Qed.

(** Whatever the user does, the HUD panel index stays within 0..3: starting
    from the constructor's state, no sequence of frames, key presses and
    slider changes reaches the fifth panel (4) that the comment in
    [__init__] lists. *)
Theorem panel_stays_in_range (es : list event)
    (r0 phi0 z0 grid_r grid_phi : vec) :
  (0 <= info_mode (run es (construct r0 phi0 z0 grid_r grid_phi)) < 4)%Z.
Proof.
  apply (run_invariant (fun s => (0 <= info_mode s < 4)%Z)).
  - exact dispatch_info_mode.
  - cbn. lia.
Qed.

(** After any sequence of frames, key presses and slider changes the HUD
    text and the horizon surface are the ones [update_hud] and
    [update_geometry] compute from the current mass, spin, mode and panel:
    no handler leaves either of them stale. *)
Theorem hud_and_horizon_always_current (es : list event)
    (r0 phi0 z0 grid_r grid_phi : vec) :
  hud_in_sync (run es (construct r0 phi0 z0 grid_r grid_phi))
  /\ horizon_in_sync (run es (construct r0 phi0 z0 grid_r grid_phi)).
Proof.
  split.
  - apply run_hud_in_sync.
  - apply (run_invariant horizon_in_sync);
      [exact dispatch_horizon_in_sync|].
    unfold construct, init.
    match goal with
    | |- horizon_in_sync (update_hud (update_geometry ?u)) =>
        apply (horizon_in_sync_transfer (update_geometry u));
        [reflexivity .. | apply horizon_in_sync_update_geometry]
    end.
Qed.

(** After any sequence of events the scatter offsets are the Cartesian
    positions [(r cos phi, r sin phi, z)] of the current particle
    coordinates. *)
Theorem scatter_always_current (es : list event)
    (r0 phi0 z0 grid_r grid_phi : vec) :
  scatter_in_sync (run es (construct r0 phi0 z0 grid_r grid_phi)).
Proof.
  apply (run_invariant scatter_in_sync);
    [exact dispatch_scatter_in_sync | reflexivity].
Qed.

End EventLoop.

(** ** More IEEE facts *)

Lemma sub_self (x : float) : is_number x = true -> x - x = 0.
Proof.
  unfold is_number. intros H. apply Prim2SF_inj.
  rewrite FloatAxioms.sub_spec. change (Prim2SF 0) with (S754_zero false).
  destruct (Prim2SF x) as [s|s| |s m e]; try discriminate H.
  - now destruct s.
  - cbn. rewrite Z.sub_diag. reflexivity.
Qed.

Lemma add_zero_r (x : float) : is_negative_zero x = false -> x + 0 = x.
Proof.
  unfold is_negative_zero. intros H. apply Prim2SF_inj.
  rewrite FloatAxioms.add_spec. change (Prim2SF 0) with (S754_zero false).
  destruct (Prim2SF x) as [s|s| |s m e]; try reflexivity.
  destruct s; [discriminate H | reflexivity].
Qed.

Lemma positive_not_negative_zero (x : float) :
  (0 <? x) = true -> is_negative_zero x = false.
Proof.
  unfold is_negative_zero. rewrite FloatAxioms.ltb_spec.
  change (Prim2SF 0) with (S754_zero false).
  destruct (Prim2SF x) as [s|s| |s m e]; try reflexivity.
  discriminate.
Qed.

Lemma zero_div_positive (x : float) : (0 <? x) = true -> 0 / x = 0.
Proof.
  intros H. apply Prim2SF_inj. rewrite FloatAxioms.div_spec.
  rewrite FloatAxioms.ltb_spec in H.
  change (Prim2SF 0) with (S754_zero false) in *.
  destruct (Prim2SF x) as [s|s| |s m e]; try discriminate H;
    destruct s; try discriminate H; reflexivity.
Qed.

Lemma mul_nan_l (x : float) : nan * x = nan.
Proof.
  apply Prim2SF_inj. rewrite FloatAxioms.mul_spec.
  change (Prim2SF nan) with S754_nan. reflexivity.
Qed.

(** ** More on arrays *)

Lemma zip_with_length {A B C : Type} (f : A -> B -> C) :
  forall (l1 : list A) (l2 : list B),
    List.length (zip_with f l1 l2)
    = Nat.min (List.length l1) (List.length l2).
Proof.
  induction l1 as [|x l1 IH]; intros [|y l2]; cbn; try reflexivity.
  now rewrite IH.
Qed.

Lemma same_shape_zip_with (f : float -> float -> float) :
  forall m1 m2 : mesh,
    same_shape m1 m2 -> same_shape (mesh_zip_with f m1 m2) m2.
Proof.
  unfold same_shape, mesh_zip_with.
  induction 1 as [|row1 row2 m1 m2 Hrow Hrest IH]; cbn; constructor.
  - rewrite zip_with_length, Hrow. apply Nat.min_id.
  - exact IH.
Qed.

Lemma Forall_zip_with {A B C : Type} (f : A -> B -> C) (Q : C -> Prop) :
  (forall x y, Q (f x y)) ->
  forall (l1 : list A) (l2 : list B), Forall Q (zip_with f l1 l2).
Proof.
  intros Hf. induction l1 as [|x l1 IH]; intros [|y l2]; cbn;
    constructor; auto.
Qed.

Lemma mesh_all_zip_with (f : float -> float -> float) (Q : float -> Prop) :
  (forall x y, Q (f x y)) ->
  forall m1 m2 : mesh, mesh_all Q (mesh_zip_with f m1 m2).
Proof.
  intros Hf. unfold mesh_all, mesh_zip_with.
  induction m1 as [|row1 m1 IH]; intros [|row2 m2]; cbn; constructor.
  - now apply Forall_zip_with.
  - apply IH.
Qed.

Lemma mesh_all_map (f : float -> float) (Q : float -> Prop) :
  (forall x, Q (f x)) -> forall m : mesh, mesh_all Q (mesh_map f m).
Proof.
  intros Hf. unfold mesh_all, mesh_map.
  induction m as [|row m IH]; cbn; constructor; [|exact IH].
  induction row; cbn; constructor; auto.
Qed.

Lemma mesh_at_meshgrid (x y : vec) (i j : nat) (r p : float) :
  nth_error x j = Some r ->
  nth_error y i = Some p ->
  mesh_at (fst (np_meshgrid x y)) i j = Some r
  /\ mesh_at (snd (np_meshgrid x y)) i j = Some p.
Proof.
  intros Hx Hy. unfold mesh_at, np_meshgrid. cbn [fst snd].
  rewrite !nth_error_map, Hy. cbn.
  rewrite nth_error_map, Hx. now split.
Qed.

Lemma same_shape_meshgrid (x y : vec) :
  same_shape (snd (np_meshgrid x y)) (fst (np_meshgrid x y)).
Proof.
  unfold same_shape, np_meshgrid. cbn [fst snd].
  induction y as [|yi y IH]; cbn; constructor; [|exact IH].
  now rewrite length_map.
Qed.

Section Physics.

Context {L : Library}.

(** ** What no event changes *)

Lemma dispatch_fixed (e : event) (s : KerrLabFinal) :
  p_r (dispatch e s) = p_r s
  /\ p_z (dispatch e s) = p_z s
  /\ R (dispatch e s) = R s.
Proof.
  destruct e as [|key|spin mass]; cbn [dispatch].
  - now destruct (update_frame s) as (_ & _ & _ & _ & _ & Hr & Hz & HR & _).
  - destruct (on_key_cases key s) as [H | [H | [H | H]]]; rewrite H;
      repeat split.
  - repeat split.
Qed.

(** No frame, key press or slider change ever alters a particle radius, a
    particle height or the radius lattice of the grid. *)
Theorem radii_heights_lattice_fixed (es : list event) (s : KerrLabFinal) :
  p_r (run es s) = p_r s
  /\ p_z (run es s) = p_z s
  /\ R (run es s) = R s.
Proof.
  apply (run_invariant
           (fun t => p_r t = p_r s /\ p_z t = p_z s /\ R t = R s));
    [|repeat split].
  intros e t (Hr & Hz & HR).
  destruct (dispatch_fixed e t) as (Hr' & Hz' & HR').
  repeat split; congruence.
Qed.

Lemma dispatch_shapes (e : event) (s : KerrLabFinal) :
  List.length (p_phi s) = List.length (p_r s) /\ same_shape (P s) (R s) ->
  List.length (p_phi (dispatch e s)) = List.length (p_phi s)
  /\ same_shape (P (dispatch e s)) (R s).
Proof.
  intros (Hlen & Hshape).
  destruct e as [|key|spin mass]; cbn [dispatch].
  - rewrite update_P. unfold update.
    destruct (paused s); [now split|]. cbn.
    assert (Hphi : List.length
                     (zip_with (fun phi r => phi + orbit_step (M s) r)
                        (p_phi s) (p_r s))
                   = List.length (p_phi s))
      by (rewrite zip_with_length, Hlen; apply Nat.min_id).
    destruct (newtonian_mode s); cbn; split; try assumption.
    now apply same_shape_zip_with.
  - destruct (on_key_cases key s) as [H | [H | [H | H]]]; rewrite H;
      now split.
  - now split.
Qed.

(** The number of particles and the shape of the grid never change: from a
    constructor state whose radius and azimuth samples have equal length,
    after any events there are as many azimuths as radii, and the azimuth
    mesh has the rows and row lengths of the radius lattice, so no
    elementwise operation ever meets operands of different shape. *)
Theorem shapes_preserved (es : list event)
    (r0 phi0 z0 grid_r grid_phi : vec)
    (Hsamples : List.length phi0 = List.length r0) :
  List.length (p_phi (run es (construct r0 phi0 z0 grid_r grid_phi)))
  = List.length r0
  /\ p_r (run es (construct r0 phi0 z0 grid_r grid_phi)) = r0
  /\ same_shape (P (run es (construct r0 phi0 z0 grid_r grid_phi)))
       (R (run es (construct r0 phi0 z0 grid_r grid_phi)))
  /\ R (run es (construct r0 phi0 z0 grid_r grid_phi))
     = map (fun _ => grid_r) grid_phi.
Proof.
  set (s0 := construct r0 phi0 z0 grid_r grid_phi).
  assert (Hinv : p_r (run es s0) = p_r s0
                 /\ R (run es s0) = R s0
                 /\ List.length (p_phi (run es s0)) = List.length (p_r s0)
                 /\ same_shape (P (run es s0)) (R s0)).
  { apply (run_invariant
             (fun t => p_r t = p_r s0
                       /\ R t = R s0
                       /\ List.length (p_phi t) = List.length (p_r s0)
                       /\ same_shape (P t) (R s0))).
    - intros e t (Hr & HR & Hlen & Hshape).
      destruct (dispatch_fixed e t) as (Hr' & _ & HR').
      destruct (dispatch_shapes e t) as (Hlen' & Hshape').
      { split; [now rewrite Hr | now rewrite HR]. }
      repeat split; congruence.
    - repeat split; [exact Hsamples | apply same_shape_meshgrid]. }
  destruct Hinv as (Hr & HR & Hlen & Hshape).
  repeat split; try assumption.
  now rewrite HR.
Qed.

(** ** What orbits and twist depend on *)

Lemma update_p_phi_gen (s : KerrLabFinal) :
  p_phi (update s)
  = if paused s then p_phi s
    else zip_with (fun phi r => phi + orbit_step (M s) r) (p_phi s) (p_r s).
Proof.
  unfold update. destruct (paused s); [reflexivity|].
  cbn. destruct (newtonian_mode s); reflexivity.
Qed.

Lemma ticks_p_phi_ext (s1 s2 : KerrLabFinal) :
  paused s1 = paused s2 ->
  M s1 = M s2 ->
  p_r s1 = p_r s2 ->
  p_phi s1 = p_phi s2 ->
  forall n : nat, p_phi (ticks n s1) = p_phi (ticks n s2).
Proof.
  intros Hp HM Hr Hphi. induction n as [|n IH]; [exact Hphi|].
  destruct (ticks_frame n s1) as (Hp1 & _ & _ & HM1 & _ & Hr1 & _).
  destruct (ticks_frame n s2) as (Hp2 & _ & _ & HM2 & _ & Hr2 & _).
  rewrite !ticks_S, !update_p_phi_gen.
  rewrite Hp1, Hp2, HM1, HM2, Hr1, Hr2, IH, Hp, HM, Hr. reflexivity.
Qed.

Lemma ticks_P_ext (s1 s2 : KerrLabFinal) :
  paused s1 = paused s2 ->
  newtonian_mode s1 = newtonian_mode s2 ->
  a s1 = a s2 ->
  R s1 = R s2 ->
  P s1 = P s2 ->
  forall n : nat, P (ticks n s1) = P (ticks n s2).
Proof.
  intros Hp Hn Ha HR HP. induction n as [|n IH]; [exact HP|].
  destruct (ticks_frame n s1) as (Hp1 & Hn1 & _ & _ & Ha1 & _ & _ & HR1 & _).
  destruct (ticks_frame n s2) as (Hp2 & Hn2 & _ & _ & Ha2 & _ & _ & HR2 & _).
  rewrite !ticks_S, !update_P.
  rewrite Hp1, Hp2, Hn1, Hn2, Ha1, Ha2, HR1, HR2, IH, Hp, Hn, Ha, HR.
  reflexivity.
Qed.

(** The orbits depend on the mass alone: over any number of frames the
    particle azimuths are the same whether or not the Newtonian mode was
    toggled, the spin changed or the HUD panel cycled beforehand. *)
Theorem orbits_ignore_spin_mode_panel (s : KerrLabFinal) (n : nat)
    (spin : float) :
  p_phi (ticks n (toggle_newtonian s)) = p_phi (ticks n s)
  /\ p_phi (ticks n (update_params spin (M s) s)) = p_phi (ticks n s)
  /\ p_phi (ticks n (cycle_hud_panel s)) = p_phi (ticks n s).
Proof.
  repeat split; now apply ticks_p_phi_ext.
Qed.

(** The grid twist depends on the spin and the mode alone: over any number
    of frames the grid azimuths are the same whatever the mass slider was
    set to beforehand, and whether or not the HUD panel was cycled. *)
Theorem grid_twist_ignores_mass (s : KerrLabFinal) (n : nat) (mass : float) :
  P (ticks n (update_params (a s) mass s)) = P (ticks n s)
  /\ P (ticks n (cycle_hud_panel s)) = P (ticks n s).
Proof.
  split; now apply ticks_P_ext.
Qed.

(** ** The constructed grid *)

(** In the simulation the constructor builds (spin 0.90, relativistic,
    running), after [n] frames the mesh point in row [i], column [j] has the
    azimuth sample [grid_phi[i]] with the drag of the radius sample
    [grid_r[j]] added [n] times: every ring of the lattice turns rigidly, by
    an amount set by its radius alone. *)
Theorem constructed_grid_rotates_by_ring
    (r0 phi0 z0 grid_r grid_phi : vec) (i j : nat) (r p : float) (n : nat)
    (Hr : nth_error grid_r j = Some r)
    (Hp : nth_error grid_phi i = Some p) :
  mesh_at (R (ticks n (construct r0 phi0 z0 grid_r grid_phi))) i j = Some r
  /\ mesh_at (P (ticks n (construct r0 phi0 z0 grid_r grid_phi))) i j
     = Some (Nat.iter n (fun x => x + (0.90 * 0.5) / np_power r 2.0) p).
Proof.
  set (s0 := construct r0 phi0 z0 grid_r grid_phi).
  destruct (mesh_at_meshgrid grid_r grid_phi i j r p Hr Hp) as (HR & HP).
  destruct (ticks_frame n s0) as (_ & _ & _ & _ & _ & _ & _ & HRn & _).
  split; [rewrite HRn; exact HR|].
  apply (ticks_mesh_at_P s0 i j p r); [reflexivity | reflexivity | |];
    assumption.
Qed.

(** ** Edge cases of the parameters *)

(** With the spin at 0 (the Schwarzschild case) the grid does not twist: in
    relativistic mode, at a mesh point whose squared radius is positive and
    whose azimuth is not the negative zero, any number of running frames
    leaves the azimuth exactly as it was. *)
Theorem zero_spin_no_twist (s : KerrLabFinal) (i j : nat) (p r : float)
    (n : nat)
    (Hrun : paused s = false) (Hrel : newtonian_mode s = false)
    (Hspin : a s = 0)
    (Hp : mesh_at (P s) i j = Some p) (Hr : mesh_at (R s) i j = Some r)
    (Hpow : (0 <? np_power r 2.0) = true)
    (Hnz : is_negative_zero p = false) :
  mesh_at (P (ticks n s)) i j = Some p.
Proof.
  rewrite (ticks_mesh_at_P s i j p r Hrun Hrel Hp Hr n). f_equal.
  assert (Hdrag : drag_factor (a s) r = 0).
  { unfold drag_factor. rewrite Hspin.
    change (0 * drag_strength) with 0.
    now apply zero_div_positive. }
  rewrite Hdrag. clear Hdrag.
  induction n as [|n IH]; [reflexivity|].
  rewrite Nat.iter_succ, IH. now apply add_zero_r.
Qed.

(** At extremal spin, [a = M], the horizon radius is the mass itself,
    whenever the mass is positive and its square is a number. *)
Theorem extremal_horizon_is_mass (mass : float)
    (Hpos : (0 <? mass) = true)
    (Hsq : is_number (py_pow mass 2) = true) :
  r_plus mass mass = mass.
Proof.
  rewrite r_plus_formula, sub_self by exact Hsq.
  change (sqrt 0) with 0.
  apply add_zero_r. now apply positive_not_negative_zero.
Qed.

(** In the naked-singularity regime nothing of the horizon can be drawn:
    when the discriminant [M ** 2 - a ** 2] is negative, [update_geometry]
    stores a surface every coordinate of which is [nan]. *)
Theorem naked_singularity_surface_is_nan (s : KerrLabFinal)
    (Hneg : (py_pow (M s) 2 - py_pow (a s) 2 <? 0) = true) :
  exists surf : surface,
    horizon_surf (update_geometry s) = Some surf
    /\ mesh_all (fun x => x = nan) (surf_X surf)
    /\ mesh_all (fun x => x = nan) (surf_Y surf)
    /\ mesh_all (fun x => x = nan) (surf_Z surf).
Proof.
  assert (Hr : r_plus (M s) (a s) = nan).
  { rewrite r_plus_formula, sqrt_negative by exact Hneg. apply add_nan_r. }
  unfold update_geometry. cbv zeta. rewrite Hr.
  eexists. split; [reflexivity|]. cbn [surf_X surf_Y surf_Z].
  repeat split.
  - apply mesh_all_zip_with. intros x y. now rewrite !mul_nan_l.
  - apply mesh_all_zip_with. intros x y. now rewrite !mul_nan_l.
  - apply mesh_all_map. intros x. apply mul_nan_l.
Qed.

End Physics.

Section Sessions.

Context {L : Library}.

(** ** Sessions without a mode or pause toggle *)

Lemma dispatch_keeps_mode (e : event) (s : KerrLabFinal) :
  toggles_mode e = false ->
  newtonian_mode (dispatch e s) = newtonian_mode s.
Proof.
  intros He. destruct e as [|key|spin mass]; cbn [dispatch].
  - now destruct (update_frame s) as (_ & Hn & _).
  - cbn in He. unfold on_key.
    destruct (key =? " ")%string; [reflexivity|].
    destruct ((key =? "e") || (key =? "E"))%string; [reflexivity|].
    now rewrite He.
  - reflexivity.
Qed.

Lemma dispatch_P_newtonian (e : event) (s : KerrLabFinal) :
  newtonian_mode s = true -> P (dispatch e s) = P s.
Proof.
  intros Hn. destruct e as [|key|spin mass]; cbn [dispatch].
  - now apply update_P_newtonian.
  - destruct (on_key_cases key s) as [H | [H | [H | H]]]; now rewrite H.
  - reflexivity.
Qed.

(** In Newtonian mode the grid is frozen against everything but the mode
    key: any sequence of frames, slider changes and other key presses leaves
    every grid azimuth as it was, and the mode Newtonian. *)
Theorem newtonian_freezes_grid_under_events (es : list event)
    (s : KerrLabFinal)
    (Hnewt : newtonian_mode s = true)
    (Hkeys : forallb (fun e => negb (toggles_mode e)) es = true) :
  P (run es s) = P s /\ newtonian_mode (run es s) = true.
Proof.
  revert s Hnewt. unfold run.
  induction es as [|e es IH]; intros s Hnewt; [now split|].
  cbn in Hkeys. apply andb_prop in Hkeys. destruct Hkeys as (He & Hes).
  apply negb_true_iff in He. cbn [fold_left].
  assert (Hn' : newtonian_mode (dispatch e s) = true)
    by (rewrite dispatch_keeps_mode; assumption).
  destruct (IH Hes (dispatch e s) Hn') as (HP & Hmode).
  split; [|exact Hmode].
  rewrite HP. now apply dispatch_P_newtonian.
Qed.

Lemma dispatch_paused (e : event) (s : KerrLabFinal) :
  paused s = true ->
  toggles_pause e = false ->
  paused (dispatch e s) = true
  /\ p_phi (dispatch e s) = p_phi s
  /\ P (dispatch e s) = P s
  /\ scat_offsets3d (dispatch e s) = scat_offsets3d s
  /\ wframe (dispatch e s) = wframe s.
Proof.
  intros Hp He. destruct e as [|key|spin mass]; cbn [dispatch].
  - rewrite update_paused by exact Hp. now repeat split.
  - cbn in He. unfold on_key. rewrite He.
    destruct ((key =? "e") || (key =? "E"))%string; [now repeat split|].
    destruct ((key =? "n") || (key =? "N"))%string; now repeat split.
  - now repeat split.
Qed.

(** While paused, nothing but the space key moves the simulation: any
    sequence of frames, slider changes and other key presses leaves every
    particle azimuth, every grid azimuth, the drawn positions and the
    wireframe as they were, while a slider change among them still stores
    its values. *)
Theorem paused_freezes_motion_under_events (es : list event)
    (s : KerrLabFinal)
    (Hpaused : paused s = true)
    (Hkeys : forallb (fun e => negb (toggles_pause e)) es = true) :
  paused (run es s) = true
  /\ p_phi (run es s) = p_phi s
  /\ P (run es s) = P s
  /\ scat_offsets3d (run es s) = scat_offsets3d s
  /\ wframe (run es s) = wframe s
  /\ forall spin mass : float,
       a (run (es ++ [SliderChanged spin mass]) s) = spin
       /\ M (run (es ++ [SliderChanged spin mass]) s) = mass.
Proof.
  assert (Hcore : paused (run es s) = true
                  /\ p_phi (run es s) = p_phi s
                  /\ P (run es s) = P s
                  /\ scat_offsets3d (run es s) = scat_offsets3d s
                  /\ wframe (run es s) = wframe s).
  { revert s Hpaused. unfold run.
    induction es as [|e es IH]; intros s Hp; [now repeat split|].
    cbn in Hkeys. apply andb_prop in Hkeys. destruct Hkeys as (He & Hes).
    apply negb_true_iff in He. cbn [fold_left].
    destruct (dispatch_paused e s Hp He) as (Hp' & H1 & H2 & H3 & H4).
    destruct (IH Hes (dispatch e s) Hp') as (I0 & I1 & I2 & I3 & I4).
    repeat split; congruence. }
  destruct Hcore as (H0 & H1 & H2 & H3 & H4).
  repeat split; try assumption;
    unfold run; rewrite fold_left_app; reflexivity.
Qed.

(** ** What the user sees *)

(** After any sequence of events the HUD starts with the dashboard line, red
    in Newtonian mode and cyan otherwise, followed by at most three texts of
    the current panel, and by none on panel 0. *)
Theorem hud_dashboard_reflects_mode (es : list event)
    (r0 phi0 z0 grid_r grid_phi : vec) :
  exists (dash : text2D) (panel : list text2D),
    text_objects (run es (construct r0 phi0 z0 grid_r grid_phi))
    = dash :: panel
    /\ text_color dash
       = (if newtonian_mode (run es (construct r0 phi0 z0 grid_r grid_phi))
          then "red" else "cyan")%string
    /\ (List.length panel <= 3)%nat
    /\ (info_mode (run es (construct r0 phi0 z0 grid_r grid_phi)) = 0%Z ->
        panel = []).
Proof.
  pose proof (run_hud_in_sync es r0 phi0 z0 grid_r grid_phi) as Hhud.
  set (s := run es (construct r0 phi0 z0 grid_r grid_phi)) in *.
  unfold hud_in_sync in Hhud. rewrite Hhud.
  unfold update_hud. cbn [text_objects set_text_objects].
  eexists. eexists. split; [reflexivity|].
  split; [reflexivity|]. split.
  - destruct (info_mode s =? 1)%Z; [cbn; lia|].
    destruct (info_mode s =? 2)%Z; [cbn; lia|].
    destruct (info_mode s =? 3)%Z; [|cbn; lia].
    destruct (newtonian_mode s); cbn; lia.
  - intros H0. rewrite H0. reflexivity.
Qed.

(** Toggling the mode restyles the horizon and does not move it: with the
    horizon up to date, the [N] key leaves its coordinates as they are and
    makes it gray at opacity 0.5 in Newtonian mode, black at 0.95 back in
    relativistic mode. *)
Theorem mode_toggle_restyles_horizon (s : KerrLabFinal)
    (Hsync : horizon_in_sync s) :
  exists before after : surface,
    horizon_surf s = Some before
    /\ horizon_surf (toggle_newtonian s) = Some after
    /\ surf_X after = surf_X before
    /\ surf_Y after = surf_Y before
    /\ surf_Z after = surf_Z before
    /\ surf_color after
       = (if newtonian_mode s then "black" else "gray")%string
    /\ surf_alpha after = (if newtonian_mode s then 0.95 else 0.5).
Proof.
  unfold horizon_in_sync in Hsync. rewrite Hsync.
  eexists. eexists. split; [reflexivity|]. split; [reflexivity|].
  cbn. destruct (newtonian_mode s); repeat split.
Qed.

End Sessions.

(** * Concrete sessions *)

Lemma pause_resume_identity_witness :
  @on_key sample_library " "
    (@ticks sample_library 5 (@on_key sample_library " " lab0)) = lab0
  /\ @on_key sample_library " " (@on_key sample_library " " lab0) = lab0
  /\ @on_key sample_library " " lab0 = set_paused true lab0.
Proof.
  exact (@pause_resume_identity sample_library lab0 5 eq_refl).
Defined.

Lemma unbound_key_ignored_witness :
  @on_key sample_library "x" lab0 = lab0
  /\ @on_key sample_library "E" lab0 = @on_key sample_library "e" lab0
  /\ @on_key sample_library "N" lab0 = @on_key sample_library "n" lab0.
Proof.
  apply (@unbound_key_ignored sample_library "x" lab0); discriminate.
Defined.

Lemma shapes_preserved_witness :
  List.length
    (p_phi (@run sample_library
              [Frame; KeyPress "n"; SliderChanged 0.5 2.0; Frame] lab2))
  = 2%nat
  /\ p_r (@run sample_library
            [Frame; KeyPress "n"; SliderChanged 0.5 2.0; Frame] lab2)
     = [2.0; 4.0]
  /\ same_shape
       (P (@run sample_library
             [Frame; KeyPress "n"; SliderChanged 0.5 2.0; Frame] lab2))
       (R (@run sample_library
             [Frame; KeyPress "n"; SliderChanged 0.5 2.0; Frame] lab2))
  /\ R (@run sample_library
          [Frame; KeyPress "n"; SliderChanged 0.5 2.0; Frame] lab2)
     = map (fun _ => [1.5; 2.0]) [0.0; 1.0; 2.0].
Proof.
  exact (@shapes_preserved sample_library
           [Frame; KeyPress "n"; SliderChanged 0.5 2.0; Frame]
           [2.0; 4.0] [0.0; 1.0] [0.0; 0.0] [1.5; 2.0] [0.0; 1.0; 2.0]
           eq_refl).
Defined.

Lemma constructed_grid_rotates_by_ring_witness :
  mesh_at (R (@ticks sample_library 3 lab2)) 2 1 = Some 2.0
  /\ mesh_at (P (@ticks sample_library 3 lab2)) 2 1
     = Some (Nat.iter 3 (fun x => x + (0.90 * 0.5) / (2.0 * 2.0)) 2.0).
Proof.
  exact (@constructed_grid_rotates_by_ring sample_library
           [2.0; 4.0] [0.0; 1.0] [0.0; 0.0] [1.5; 2.0] [0.0; 1.0; 2.0]
           2 1 2.0 2.0 3 eq_refl eq_refl).
Defined.

Lemma zero_spin_no_twist_witness :
  a lab_spin0 = 0
  /\ mesh_at (P (@ticks sample_library 7 lab_spin0)) 0 0 = Some 0.
Proof.
  split; [reflexivity|].
  exact (@zero_spin_no_twist sample_library lab_spin0 0 0 0 2 7
           eq_refl eq_refl eq_refl eq_refl eq_refl eq_refl eq_refl).
Defined.

Lemma extremal_horizon_is_mass_witness :
  @r_plus sample_library 0.5 0.5 = 0.5.
Proof.
  exact (@extremal_horizon_is_mass sample_library 0.5 eq_refl eq_refl).
Defined.

Lemma naked_singularity_surface_is_nan_witness :
  exists surf : surface,
    horizon_surf
      (@update_geometry sample_library (set_M 0.5 (set_a 0.99 lab0)))
    = Some surf
    /\ mesh_all (fun x => x = nan) (surf_X surf)
    /\ mesh_all (fun x => x = nan) (surf_Y surf)
    /\ mesh_all (fun x => x = nan) (surf_Z surf).
Proof.
  exact (@naked_singularity_surface_is_nan sample_library
           (set_M 0.5 (set_a 0.99 lab0)) eq_refl).
Defined.

Lemma newtonian_freezes_grid_under_events_witness :
  P (@run sample_library
       [Frame; SliderChanged 0.5 1.0; KeyPress "e"; Frame]
       (@toggle_newtonian sample_library lab0))
  = P (@toggle_newtonian sample_library lab0)
  /\ newtonian_mode
       (@run sample_library
          [Frame; SliderChanged 0.5 1.0; KeyPress "e"; Frame]
          (@toggle_newtonian sample_library lab0))
     = true.
Proof.
  exact (@newtonian_freezes_grid_under_events sample_library
           [Frame; SliderChanged 0.5 1.0; KeyPress "e"; Frame]
           (@toggle_newtonian sample_library lab0) eq_refl eq_refl).
Defined.

Lemma paused_freezes_motion_under_events_witness :
  p_phi (@run sample_library
           [Frame; SliderChanged 0.5 2.0; KeyPress "n"; Frame] lab_paused)
  = p_phi lab_paused
  /\ M (@run sample_library
          [Frame; SliderChanged 0.5 2.0; KeyPress "n"; Frame] lab_paused)
     = 2.0.
Proof.
  split.
  - exact (proj1 (proj2
      (@paused_freezes_motion_under_events sample_library
         [Frame; SliderChanged 0.5 2.0; KeyPress "n"; Frame] lab_paused
         eq_refl eq_refl))).
  - reflexivity.
Defined.

Lemma mode_toggle_restyles_horizon_witness :
  exists before after : surface,
    horizon_surf lab0 = Some before
    /\ horizon_surf (@toggle_newtonian sample_library lab0) = Some after
    /\ surf_X after = surf_X before
    /\ surf_Y after = surf_Y before
    /\ surf_Z after = surf_Z before
    /\ surf_color after
       = (if newtonian_mode lab0 then "black" else "gray")%string
    /\ surf_alpha after = (if newtonian_mode lab0 then 0.95 else 0.5).
Proof.
  exact (@mode_toggle_restyles_horizon sample_library lab0 eq_refl).
Defined.
